(** * The pterosphera key-matrix prototype (firmware/prototype)

    A shallow embedding of [keymatrix/kmx.h], [keymatrix/kmx.c] and [main.c],
    followed by a measuring bench around [kmx_nextRow] and the properties of
    the scanning engine stated on it.

    The reporter is a C function pointer called for its effect.  It is
    embedded as a transformer of a world [W] that the engine itself never
    inspects: [kmx_nextRow] is polymorphic in [W], exactly as the C function
    knows nothing of what its callback touches. *)

From Stdlib Require Import NArith List Bool Lia.
From Stdlib Require String Ascii DecimalString DecimalN.
Import ListNotations.

Set Implicit Arguments.

(* ================================================================== *)
(** ** keymatrix/kmx.h and keymatrix/kmx.c *)

Module Kmx.

(** [typedef enum kmx_keystate{DOWN, UP};].  The type holds the two
    enumerators, the only values the sources ever store in a [kmx_keystate]
    object; an object made to hold another integer is outside it. *)
Inductive kmx_keystate : Set :=
| DOWN
| UP.

(** The enumerators' integer values: the first one is 0. *)
Definition kmx_keystate_value (s : kmx_keystate) : N :=
  match s with
  | DOWN => 0%N
  | UP => 1%N
  end.

(** [typedef uint_fast8_t kmx_int;]: unsigned, at least eight bits wide.  The
    source performs no arithmetic on it, so only the range every platform
    guarantees matters. *)
Definition kmx_int : Set := N.

Definition kmx_int_guaranteed_max : N := 255%N.

(** kmx.h also names a type [kmx_matrix], a [KMX_ROWS] by [KMX_COLS] array of
    [kmx_keystate]; no object of that type is declared anywhere in the
    sources, so there is nothing of it to embed: the engine holds no key
    states. *)

(** [struct kmx_coord] *)
Record kmx_coord : Set := Coord {
  outIx : kmx_int;
  inIx : kmx_int
}.

(** [struct kmx_key] *)
Record kmx_key : Set := Key {
  coord : kmx_coord;
  state : kmx_keystate
}.

(** [kmx_key_reporter]: pointer to a function taking a [kmx_key] by value and
    returning nothing, called for its effect on the world [W]. *)
Definition kmx_key_reporter (W : Type) : Type := kmx_key -> W -> W.

(** An automatic [kmx_key] object.  [kmx_key k;] declares it without an
    initialiser, so each member is indeterminate ([None]) until assigned. *)
Record kmx_key_object : Set := Object {
  obj_outIx : option kmx_int;
  obj_inIx : option kmx_int;
  obj_state : option kmx_keystate
}.

Definition uninitialised : kmx_key_object :=
  {| obj_outIx := None; obj_inIx := None; obj_state := None |}.

(** [k.coord.inIx = v;] *)
Definition assign_coord_inIx (v : kmx_int) (k : kmx_key_object) : kmx_key_object :=
  {| obj_outIx := obj_outIx k; obj_inIx := Some v; obj_state := obj_state k |}.

(** [k.coord.outIx = v;] *)
Definition assign_coord_outIx (v : kmx_int) (k : kmx_key_object) : kmx_key_object :=
  {| obj_outIx := Some v; obj_inIx := obj_inIx k; obj_state := obj_state k |}.

(** [k.state = v;] *)
Definition assign_state (v : kmx_keystate) (k : kmx_key_object) : kmx_key_object :=
  {| obj_outIx := obj_outIx k; obj_inIx := obj_inIx k; obj_state := Some v |}.

(** Passing the object by value reads every member; a member that was never
    assigned has no value to pass. *)
Definition by_value (k : kmx_key_object) : option kmx_key :=
  match obj_outIx k, obj_inIx k, obj_state k with
  | Some o, Some i, Some s => Some {| coord := {| outIx := o; inIx := i |}; state := s |}
  | _, _, _ => None
  end.

(** [void kmx_nextRow(kmx_key_reporter reporter)], kmx.c lines 4-10.
    [None] would mean that an indeterminate member reached the reporter. *)
Definition kmx_nextRow {W : Type} (reporter : kmx_key_reporter W) (w : W) : option W :=
  let k := uninitialised in
  let k := assign_coord_inIx 4%N k in
  let k := assign_coord_outIx 2%N k in
  let k := assign_state DOWN k in
  match by_value k with
  | Some v => Some (reporter v w)
  | None => None
  end.

Definition kmx_keystate_eqb (a b : kmx_keystate) : bool :=
  match a, b with
  | DOWN, DOWN | UP, UP => true
  | _, _ => false
  end.

Definition kmx_coord_eqb (a b : kmx_coord) : bool :=
  N.eqb (outIx a) (outIx b) && N.eqb (inIx a) (inIx b).

Definition kmx_key_eqb (a b : kmx_key) : bool :=
  kmx_coord_eqb (coord a) (coord b) && kmx_keystate_eqb (state a) (state b).

End Kmx.

(* ================================================================== *)
(** ** main.c *)

Module Main.
Import Kmx.
Import String Ascii DecimalString.

(** Standard output, as the text written so far. *)
Definition stdout : Set := string.

(** The [%i] conversion of a non-negative value. *)
Definition percent_i (n : N) : string := NilEmpty.string_of_uint (N.to_uint n).

Definition newline : string := String (ascii_of_nat 10) EmptyString.

(** [void reportKey(kmx_key k)]: one [printf] of the fixed text, then
    [k.coord.inIx], an [x], [k.coord.outIx], a blank, [k.state] and a newline,
    the three values under the [%i] conversion. *)
Definition reportKey : kmx_key_reporter stdout :=
  fun k out =>
    (out ++ "Reporting Key: " ++ percent_i (inIx (coord k)) ++ "x"
         ++ percent_i (outIx (coord k)) ++ " "
         ++ percent_i (kmx_keystate_value (state k)) ++ newline)%string.

(** [int main()]: one call of [kmx_nextRow(&reportKey)], then [return 0]. *)
Definition main (out : stdout) : option (stdout * N) :=
  match kmx_nextRow reportKey out with
  | Some out' => Some (out', 0%N)
  | None => None
  end.

End Main.

(* ================================================================== *)
(** ** Reading the console

    What can be observed of the text that main.c writes: its lines and the
    kind of characters in it. *)

Module Output.
Import Kmx Main.
Import String Ascii.

(** The text one call of [reportKey] writes. *)
Definition line (k : kmx_key) : string := reportKey k EmptyString.

Definition is_newline (a : ascii) : bool := Ascii.eqb a (ascii_of_nat 10).

(** The number of line ends in a text. *)
Fixpoint newlines (s : string) : nat :=
  match s with
  | EmptyString => 0%nat
  | String a s' => ((if is_newline a then 1 else 0) + newlines s')%nat
  end.

(** The characters 0 to 9. *)
Definition is_digit (a : ascii) : bool :=
  Nat.leb 48 (nat_of_ascii a) && Nat.leb (nat_of_ascii a) 57.

Fixpoint all_digits (s : string) : bool :=
  match s with
  | EmptyString => true
  | String a s' => is_digit a && all_digits s'
  end.

(** [n] copies of a text, one after the other. *)
Fixpoint copies (n : nat) (s : string) : string :=
  match n with
  | O => EmptyString
  | S n' => (s ++ copies n' s)%string
  end.

End Output.

(* ================================================================== *)
(** ** A measuring bench around [kmx_nextRow]

    Nothing below is firmware.  The bench supplies what the engine is called
    in: the matrix pins a sampler adapter would read, a reporter that is
    recorded before it is obeyed, and the consumer's state behind the
    reporter.  The observations the properties speak of (events of a cell,
    the state last confirmed to the consumer) are computed from that
    record. *)

Module Bench.
Import Kmx.

(** One electrical reading of a cell: [true] when the circuit reads closed. *)
Definition RawSample : Set := bool.

(** What the sampler adapter answers for each cell while one call runs;
    [None] where it has no reading to give. *)
Definition samples : Type := kmx_coord -> option RawSample.

(** The state a reading proposes: [DOWN] if closed, [UP] otherwise. *)
Definition proposed (x : RawSample) : kmx_keystate := if x then DOWN else UP.

Definition sampled (p : samples) (c : kmx_coord) : bool :=
  match p c with
  | Some _ => true
  | None => false
  end.

Record bench (U : Type) : Type := Rig {
  pins : samples;              (* the matrix, as the adapter would read it *)
  reported : list kmx_key;     (* arguments of the reporter calls, oldest first *)
  consumer : U                 (* whatever the caller's reporter keeps *)
}.

(** The caller's reporter.  It may look at the pins itself; the engine's
    interface gives it the key only. *)
Definition onlooker (U : Type) : Type := samples -> kmx_key_reporter U.

(** The reporter handed to the engine: it records its argument, then runs the
    caller's reporter. *)
Definition probe {U : Type} (r : onlooker U) : kmx_key_reporter (bench U) :=
  fun k b =>
    {| pins := pins b;
       reported := reported b ++ [k];
       consumer := r (pins b) k (consumer b) |}.

(** The environment settles the pins before a call. *)
Definition present {U : Type} (p : samples) (b : bench U) : bench U :=
  {| pins := p; reported := reported b; consumer := consumer b |}.

Definition power_on {U : Type} (u : U) : bench U :=
  {| pins := fun _ => None; reported := []; consumer := u |}.

(** One call of [kmx_nextRow] while the pins read [p]. *)
Definition call {U : Type} (r : onlooker U) (p : samples) (b : bench U) : option (bench U) :=
  kmx_nextRow (probe r) (present p b).

(** A sequence of calls, one per element, each under its own pins. *)
Fixpoint run {U : Type} (r : onlooker U) (ps : list samples) (b : bench U) : option (bench U) :=
  match ps with
  | [] => Some b
  | p :: ps' =>
      match call r p b with
      | Some b' => run r ps' b'
      | None => None
      end
  end.

(** A pass over a board of [KMX_ROWS] driven lines takes [KMX_ROWS] calls of
    [kmx_nextRow], all under the pass's pins.  [KMX_ROWS] comes from main.h,
    which is not among the sources, and so stays a parameter. *)
Definition sweep (KMX_ROWS : nat) (p : samples) : list samples := repeat p KMX_ROWS.

Definition scan {U : Type} (KMX_ROWS : nat) (r : onlooker U)
  (passes : list samples) (b : bench U) : option (bench U) :=
  run r (flat_map (sweep KMX_ROWS) passes) b.

(** The reporter calls made between two states of the bench. *)
Definition since {U : Type} (b b' : bench U) : list kmx_key :=
  skipn (length (reported b)) (reported b').

Definition events_for (c : kmx_coord) (l : list kmx_key) : list kmx_key :=
  filter (fun k => kmx_coord_eqb (coord k) c) l.

(** The consumer's picture of the keys: the state last confirmed to it for
    each cell. *)
Definition keyview : Type := kmx_coord -> kmx_keystate.

Definition note (k : kmx_key) (v : keyview) : keyview :=
  fun c => if kmx_coord_eqb c (coord k) then state k else v c.

(** The picture after the reports [l], starting from [v0]. *)
Definition confirmedState (v0 : keyview) (l : list kmx_key) : keyview :=
  fold_left (fun v k => note k v) l v0.

(** The key that kmx.c writes into [k]. *)
Definition fixed_coord : kmx_coord := {| outIx := 2%N; inIx := 4%N |}.

Definition fixed_key : kmx_key := {| coord := fixed_coord; state := DOWN |}.

(** *** Premises of the properties, as decidable conditions on the bench *)

(** Every pass supplies a reading for [c], and each proposes [s]. *)
Definition steady (c : kmx_coord) (s : kmx_keystate) (passes : list samples) : bool :=
  forallb (fun p => match p c with
                    | Some x => kmx_keystate_eqb (proposed x) s
                    | None => false
                    end) passes.

(** Every pass supplies a reading for [c], and each proposes the opposite of
    the one before. *)
Fixpoint toggles_after (prev : option kmx_keystate) (c : kmx_coord)
  (passes : list samples) : bool :=
  match passes with
  | [] => true
  | p :: passes' =>
      match p c with
      | None => false
      | Some x =>
          match prev with
          | None => true
          | Some s => negb (kmx_keystate_eqb s (proposed x))
          end && toggles_after (Some (proposed x)) c passes'
      end
  end.

Definition toggles (c : kmx_coord) (passes : list samples) : bool :=
  toggles_after None c passes.

(** *** Concrete boards and consumers *)

(** A board of [rows] by [cols] cells, every one of them reading [x]; there
    is nothing to sample outside it. *)
Definition board (rows cols : N) (x : RawSample) : samples :=
  fun c => if (N.ltb (outIx c) rows && N.ltb (inIx c) cols)%bool then Some x else None.

(** The same readings, except that the adapter fails for cell [c]. *)
Definition without (c : kmx_coord) (p : samples) : samples :=
  fun c' => if kmx_coord_eqb c' c then None else p c'.

(** All keys up, the picture at power-on. *)
Definition released : keyview := fun _ => UP.

(** The console reporter of main.c, which does not look at the pins. *)
Definition console : onlooker Main.stdout := fun _ => Main.reportKey.

End Bench.

(* ================================================================== *)
(** ** The engine's properties as the design document words them

    Each is a proposition about the bench, so that it can be decided at a
    concrete board.  A cell's confirmedState is what the consumer was last
    told about it ([confirmedState]); a KeyEvent is a reporter call. *)

Module Design.
Import Kmx Bench.

(** Modelled from the spec: the loop of scanFull, which is not in the
    sources, over the out lines still to be scanned.  The row scan of the
    sources is [kmx_nextRow]; it has no parameter for the out line, so the
    index has nothing to be passed to and only counts the calls. *)
Fixpoint scanFrom {U : Type} (r : onlooker U) (outs : list nat)
  (b : bench U) : option (bench U) :=
  match outs with
  | [] => Some b
  | _ :: outs' =>
      match kmx_nextRow (probe r) b with
      | Some b' => scanFrom r outs' b'
      | None => None
      end
  end.

(** Modelled from the spec: scanFull, which is not in the sources, makes the
    row scan for every outIx in [0, OUT_LINES), in increasing order, once,
    under the pins of the pass. *)
Definition scanFull {U : Type} (OUT_LINES : nat) (r : onlooker U)
  (p : samples) (b : bench U) : option (bench U) :=
  scanFrom r (seq 0 OUT_LINES) (present p b).

Section Stated.

Variable U : Type.
Variable r : onlooker U.
Variable KMX_ROWS : nat.
Variable v0 : keyview.

(** Debounce convergence at threshold [T]: [passes] propose [s] for cell [c]
    throughout, there are at least [T] of them, and [c] is confirmed in the
    other state beforehand. *)
Definition debounce_convergence (b : bench U) (T : nat) (c : kmx_coord)
  (s : kmx_keystate) (passes : list samples) : Prop :=
  1 <= T -> T <= length passes ->
  steady c s passes = true ->
  kmx_keystate_eqb (confirmedState v0 (reported b) c) s = false ->
  exists b', scan KMX_ROWS r passes b = Some b' /\
             length (events_for c (since b b')) = 1 /\
             confirmedState v0 (reported b') c = s.

(** One row scan reports the cells whose confirmed state it changed, once
    each, and no other cell. *)
Definition reports_exactly_changes (b : bench U) (p : samples) : Prop :=
  forall b', call r p b = Some b' ->
  forall c, length (events_for c (since b b')) =
            if kmx_keystate_eqb (confirmedState v0 (reported b) c)
                                (confirmedState v0 (reported b') c)
            then 0 else 1.

(** Bounce rejection: the proposal for [c] flips on every pass, so no two
    consecutive passes agree and a threshold of two or more is never met;
    after any number of the passes [c] has no event and its old state. *)
Definition bounce_rejection (b : bench U) (T : nat) (c : kmx_coord)
  (passes : list samples) : Prop :=
  2 <= T -> toggles c passes = true ->
  forall n, exists b', scan KMX_ROWS r (firstn n passes) b = Some b' /\
                       events_for c (since b b') = [] /\
                       confirmedState v0 (reported b') c = confirmedState v0 (reported b) c.

(** Idempotence of stable state: [c] is confirmed in state [s] and every
    further pass proposes [s] again. *)
Definition stable_state_is_silent (b : bench U) (c : kmx_coord)
  (s : kmx_keystate) (passes : list samples) : Prop :=
  steady c s passes = true ->
  kmx_keystate_eqb (confirmedState v0 (reported b) c) s = true ->
  exists b', scan KMX_ROWS r passes b = Some b' /\
             events_for c (since b b') = [].

(** Coordinate fidelity of one pass: every event names a cell that the pass
    had a sample for. *)
Definition coordinate_fidelity (b : bench U) (p : samples) : Prop :=
  exists b', scan KMX_ROWS r [p] b = Some b' /\
             forallb (fun e => sampled p (coord e)) (since b b') = true.

(** Missing-sample resilience: the pass has no sample for [c]; it completes
    all the same, with no event for [c] and the confirmed state of [c]
    untouched.  (The source holds no candidate state and no match count.) *)
Definition missing_sample_resilience (b : bench U) (c : kmx_coord)
  (p : samples) : Prop :=
  p c = None ->
  exists b', scan KMX_ROWS r [p] b = Some b' /\
             events_for c (since b b') = [] /\
             confirmedState v0 (reported b') c = confirmedState v0 (reported b) c.

(** The full-matrix scenario: a 2 by 2 board, all four cells sampled Down,
    one scanFull from power-on; four events, in strobe order. *)
Definition full_scan_scenario (u : U) : Prop :=
  exists b', scanFull 2 r (board 2 2 true) (power_on u) = Some b' /\
             reported b' =
               [ {| coord := {| outIx := 0%N; inIx := 0%N |}; state := DOWN |};
                 {| coord := {| outIx := 0%N; inIx := 1%N |}; state := DOWN |};
                 {| coord := {| outIx := 1%N; inIx := 0%N |}; state := DOWN |};
                 {| coord := {| outIx := 1%N; inIx := 1%N |}; state := DOWN |} ].

End Stated.

End Design.

(* ================================================================== *)
(** ** What the code does *)

Import Kmx Bench Design.

(** *** Equality tests *)

Lemma kmx_coord_eqb_eq (a b : kmx_coord) : kmx_coord_eqb a b = true <-> a = b.
Proof.
  destruct a as [ao ai], b as [bo bi]; unfold kmx_coord_eqb; simpl.
  rewrite andb_true_iff, !N.eqb_eq. split.
  - intros [-> ->]; reflexivity.
  - intros E; injection E; auto.
Qed.

Lemma kmx_coord_eqb_refl (a : kmx_coord) : kmx_coord_eqb a a = true.
Proof. apply kmx_coord_eqb_eq; reflexivity. Qed.

Lemma kmx_coord_eqb_sym (a b : kmx_coord) : kmx_coord_eqb a b = kmx_coord_eqb b a.
Proof. unfold kmx_coord_eqb; now rewrite (N.eqb_sym (outIx a)), (N.eqb_sym (inIx a)). Qed.

Lemma kmx_keystate_eqb_eq (a b : kmx_keystate) : kmx_keystate_eqb a b = true <-> a = b.
Proof. destruct a, b; simpl; split; congruence. Qed.

(** *** The function itself *)

(** The three assignments leave no member indeterminate. *)
Lemma assigned_key_by_value :
  by_value (assign_state DOWN (assign_coord_outIx 2%N (assign_coord_inIx 4%N uninitialised)))
  = Some fixed_key.
Proof. reflexivity. Qed.

(** The assignments commute: the key does not depend on the order in which
    kmx.c fills the members. *)
Lemma assignment_order_irrelevant (o i : kmx_int) (s : kmx_keystate) (k : kmx_key_object) :
  by_value (assign_state s (assign_coord_outIx o (assign_coord_inIx i k)))
  = by_value (assign_coord_inIx i (assign_coord_outIx o (assign_state s k))).
Proof. reflexivity. Qed.

Lemma fixed_key_in_range :
  (outIx fixed_coord <= kmx_int_guaranteed_max)%N /\
  (inIx fixed_coord <= kmx_int_guaranteed_max)%N.
Proof. split; vm_compute; discriminate. Qed.

Lemma kmx_nextRow_eq (W : Type) (reporter : kmx_key_reporter W) (w : W) :
  kmx_nextRow reporter w = Some (reporter fixed_key w).
Proof. unfold kmx_nextRow. rewrite assigned_key_by_value. reflexivity. Qed.

(** main.c prints one line and returns 0. *)
Module MainFacts.
Import String.

Lemma main_prints (out : Main.stdout) :
  Main.main out = Some ((out ++ "Reporting Key: 4x2 0" ++ Main.newline)%string, 0%N).
Proof. unfold Main.main. rewrite kmx_nextRow_eq. reflexivity. Qed.

End MainFacts.

(** *** Calls on the bench *)

Section Calls.

Variable U : Type.
Variable r : onlooker U.

Lemma call_eq (p : samples) (b : bench U) :
  call r p b = Some {| pins := p;
                       reported := reported b ++ [fixed_key];
                       consumer := r p fixed_key (consumer b) |}.
Proof. unfold call. rewrite kmx_nextRow_eq. reflexivity. Qed.

(** Any sequence of calls completes; the record grows by one [fixed_key] per
    call, and the caller's reporter has run once per call, on that key. *)
Lemma run_total (ps : list samples) :
  forall b : bench U,
  exists b', run r ps b = Some b' /\
             reported b' = reported b ++ repeat fixed_key (length ps) /\
             consumer b' = fold_left (fun u p => r p fixed_key u) ps (consumer b).
Proof.
  induction ps as [|p ps IH]; intros b; cbn [run length repeat fold_left].
  - exists b. rewrite app_nil_r. auto.
  - rewrite call_eq.
    destruct (IH {| pins := p; reported := reported b ++ [fixed_key];
                    consumer := r p fixed_key (consumer b) |}) as (b' & Hrun & Hrep & Hcon).
    exists b'. simpl in Hrep, Hcon. rewrite <- app_assoc in Hrep. auto.
Qed.

Lemma sweeps_length (KMX_ROWS : nat) (passes : list samples) :
  length (flat_map (sweep KMX_ROWS) passes) = length passes * KMX_ROWS.
Proof.
  induction passes as [|p passes IH]; simpl; [reflexivity|].
  unfold sweep at 1. rewrite length_app, repeat_length, IH. reflexivity.
Qed.

Lemma scan_total (KMX_ROWS : nat) (passes : list samples) (b : bench U) :
  exists b', scan KMX_ROWS r passes b = Some b' /\
             reported b' = reported b ++ repeat fixed_key (length passes * KMX_ROWS).
Proof.
  unfold scan. destruct (run_total (flat_map (sweep KMX_ROWS) passes) b) as (b' & H1 & H2 & _).
  exists b'. rewrite sweeps_length in H2. auto.
Qed.

Lemma since_app (b b' : bench U) (l : list kmx_key) :
  reported b' = reported b ++ l -> since b b' = l.
Proof.
  intros E. unfold since. rewrite E. clear E.
  induction (reported b) as [|k ks IH]; simpl; auto.
Qed.

End Calls.

(** *** Observations on a record of fixed keys *)

Lemma events_for_fixed (c : kmx_coord) (n : nat) :
  events_for c (repeat fixed_key n)
  = if kmx_coord_eqb fixed_coord c then repeat fixed_key n else [].
Proof.
  unfold events_for. induction n as [|n IH]; simpl.
  - destruct (kmx_coord_eqb fixed_coord c); reflexivity.
  - rewrite IH. destruct (kmx_coord_eqb fixed_coord c); reflexivity.
Qed.

Lemma events_for_other (c : kmx_coord) (n : nat) :
  kmx_coord_eqb c fixed_coord = false -> events_for c (repeat fixed_key n) = [].
Proof.
  intros E. rewrite events_for_fixed, kmx_coord_eqb_sym, E. reflexivity.
Qed.

Lemma confirmedState_app (v0 : keyview) (l l' : list kmx_key) :
  confirmedState v0 (l ++ l') = confirmedState (confirmedState v0 l) l'.
Proof. unfold confirmedState. apply fold_left_app. Qed.

Lemma confirmedState_fixed_other (c : kmx_coord) (n : nat) :
  kmx_coord_eqb c fixed_coord = false ->
  forall v : keyview, confirmedState v (repeat fixed_key n) c = v c.
Proof.
  intros E. induction n as [|n IH]; intros v; simpl; [reflexivity|].
  unfold confirmedState in *. simpl. rewrite IH. unfold note. simpl. rewrite E. reflexivity.
Qed.

Lemma confirmedState_fixed_down (n : nat) :
  forall v : keyview, confirmedState v (repeat fixed_key (S n)) fixed_coord = DOWN.
Proof.
  induction n as [|n IH]; intros v.
  - reflexivity.
  - change (repeat fixed_key (S (S n))) with (fixed_key :: repeat fixed_key (S n)).
    unfold confirmedState in *. simpl fold_left at 1. apply IH.
Qed.

(** *** The modelled full scan *)

Lemma scanFrom_run (U : Type) (r : onlooker U) (outs : list nat) :
  forall b : bench U,
  scanFrom r outs b = run r (repeat (pins b) (length outs)) b.
Proof.
  induction outs as [|o outs IH]; intros b; cbn [scanFrom length repeat run].
  - reflexivity.
  - unfold call. replace (present (pins b) b) with b by (destruct b; reflexivity).
    rewrite kmx_nextRow_eq. rewrite IH. reflexivity.
Qed.

(** On a board with at least one out line, the modelled full scan is one
    pass of the bench. *)
Lemma scanFull_is_a_pass (U : Type) (n : nat) (r : onlooker U)
  (p : samples) (b : bench U) :
  scanFull (S n) r p b = scan (S n) r [p] b.
Proof.
  unfold scanFull, scan. rewrite scanFrom_run, length_seq.
  cbn [flat_map present pins app]. rewrite app_nil_r.
  unfold sweep. cbn [repeat run]. unfold call.
  replace (present p (present p b)) with (present p b) by reflexivity.
  reflexivity.
Qed.

(* ================================================================== *)
(** ** The properties, settled *)

(** C8.  For every reporter callback, one call of [kmx_nextRow] calls the
    reporter exactly once, on the key with [coord.outIx = 2], [coord.inIx = 4]
    and [state = DOWN]: in any world the call is one application of the
    reporter to that key, and on the bench the record of reporter calls grows
    by that single entry, whatever the pins read, whatever was reported
    before and whatever the consumer holds. *)
Theorem nextRow_reports_fixed_key_once :
  (forall (W : Type) (reporter : kmx_key_reporter W) (w : W),
     kmx_nextRow reporter w
     = Some (reporter {| coord := {| outIx := 2%N; inIx := 4%N |}; state := DOWN |} w))
  /\
  (forall (U : Type) (r : onlooker U) (b : bench U),
     exists b', kmx_nextRow (probe r) b = Some b' /\
                since b b' = [ {| coord := {| outIx := 2%N; inIx := 4%N |}; state := DOWN |} ] /\
                consumer b' = r (pins b) fixed_key (consumer b)).
Proof.
  split.
  - intros W reporter w. apply kmx_nextRow_eq.
  - intros U r b. rewrite kmx_nextRow_eq. eexists. split; [reflexivity|].
    split; [|reflexivity]. apply since_app. reflexivity.
Qed.

(** C9.  Across any sequence of [kmx_nextRow] calls, with any reporter and
    under any pins, the sequence completes and no reporter call carries the
    state [UP]: a key release is never reported. *)
Theorem never_reports_up (U : Type) (r : onlooker U) (ps : list samples) (b : bench U) :
  exists b', run r ps b = Some b' /\
             Forall (fun k => state k <> UP) (since b b').
Proof.
  destruct (run_total r ps b) as (b' & Hrun & Hrep & _).
  exists b'. split; [exact Hrun|].
  rewrite (since_app b b' _ Hrep).
  apply Forall_forall. intros k Hk. apply repeat_spec in Hk. subst k. discriminate.
Qed.

(** C10.  Two runs of equally many [kmx_nextRow] calls with the same
    reporter, started from the same record, make the same sequence of
    reporter calls whatever the pins read in either run (and whatever the
    consumer held): nothing read from hardware reaches the reports. *)
Theorem reports_independent_of_pins (U : Type) (r : onlooker U)
  (ps1 ps2 : list samples) (b1 b2 : bench U) :
  length ps1 = length ps2 ->
  reported b1 = reported b2 ->
  exists b1' b2', run r ps1 b1 = Some b1' /\ run r ps2 b2 = Some b2' /\
                  reported b1' = reported b2'.
Proof.
  intros Hlen Hrep.
  destruct (run_total r ps1 b1) as (b1' & Hrun1 & Hrep1 & _).
  destruct (run_total r ps2 b2) as (b2' & Hrun2 & Hrep2 & _).
  exists b1', b2'. repeat split; try assumption.
  rewrite Hrep1, Hrep2, Hlen, Hrep. reflexivity.
Qed.

Lemma reports_independent_of_pins_witness :
  length [board 3 5 true; board 3 5 false] = length [without fixed_coord (board 3 5 false); board 2 2 true] /\
  reported (power_on (U := Main.stdout) String.EmptyString)
  = reported (present (board 3 5 true) (power_on (U := Main.stdout) String.EmptyString)) /\
  exists b1' b2',
    run console [board 3 5 true; board 3 5 false] (power_on String.EmptyString) = Some b1' /\
    run console [without fixed_coord (board 3 5 false); board 2 2 true]
        (present (board 3 5 true) (power_on String.EmptyString)) = Some b2' /\
    reported b1' = reported b2'.
Proof.
  split; [reflexivity|]. split; [reflexivity|].
  apply (@reports_independent_of_pins Main.stdout console
           [board 3 5 true; board 3 5 false]
           [without fixed_coord (board 3 5 false); board 2 2 true]
           (power_on String.EmptyString)
           (present (board 3 5 true) (power_on String.EmptyString))); reflexivity.
Defined.

(** *** Two passes of a cell, spelled out *)

Section Passes.

Variable U : Type.
Variable r : onlooker U.
Variable KMX_ROWS : nat.
Variable v0 : keyview.

(** What any scan leaves for a cell other than the fixed one: no event, and
    the state it was confirmed in. *)
Lemma scan_leaves_other_cells (passes : list samples) (b : bench U) (c : kmx_coord) :
  kmx_coord_eqb c fixed_coord = false ->
  exists b', scan KMX_ROWS r passes b = Some b' /\
             events_for c (since b b') = [] /\
             confirmedState v0 (reported b') c = confirmedState v0 (reported b) c.
Proof.
  intros Hc. destruct (scan_total r KMX_ROWS passes b) as (b' & Hscan & Hrep).
  exists b'. split; [exact Hscan|]. split.
  - rewrite (since_app b b' _ Hrep). now apply events_for_other.
  - rewrite Hrep, confirmedState_app. now apply confirmedState_fixed_other.
Qed.

(** What a scan of at least one call leaves for the fixed cell: one event
    per call, and [DOWN] confirmed. *)
Lemma scan_hits_fixed_cell (passes : list samples) (b : bench U) :
  1 <= length passes * KMX_ROWS ->
  exists b', scan KMX_ROWS r passes b = Some b' /\
             events_for fixed_coord (since b b') = repeat fixed_key (length passes * KMX_ROWS) /\
             confirmedState v0 (reported b') fixed_coord = DOWN.
Proof.
  intros Hn. destruct (scan_total r KMX_ROWS passes b) as (b' & Hscan & Hrep).
  exists b'. split; [exact Hscan|]. split.
  - rewrite (since_app b b' _ Hrep), events_for_fixed, kmx_coord_eqb_refl. reflexivity.
  - rewrite Hrep, confirmedState_app.
    destruct (length passes * KMX_ROWS) as [|n]; [lia|]. apply confirmedState_fixed_down.
Qed.

End Passes.

Lemma steady_closed_board (n : nat) :
  steady fixed_coord DOWN (repeat (board 3 5 true) n) = true.
Proof. induction n as [|n IH]; simpl; [reflexivity|exact IH]. Qed.

(** C1 (the code at the failing input: a board of 3 by 5 cells all held
    closed for two passes, threshold 2, every key confirmed Up at power-on).
    Whatever the reporter and the number of calls a pass takes, cell (0,0) is
    never reported and stays confirmed Up, and cell (2,4) is reported on
    every call, twice or more: convergence fails for both. *)
Theorem held_key_not_reported_once (U : Type) (r : onlooker U) (n : nat) (u : U) :
  exists b', scan (S n) r [board 3 5 true; board 3 5 true] (power_on u) = Some b' /\
             events_for {| outIx := 0%N; inIx := 0%N |} (since (power_on u) b') = [] /\
             confirmedState released (reported b') {| outIx := 0%N; inIx := 0%N |} = UP /\
             events_for fixed_coord (since (power_on u) b') = repeat fixed_key (2 * S n) /\
             ~ debounce_convergence r (S n) released (power_on u) 2
                 {| outIx := 0%N; inIx := 0%N |} DOWN [board 3 5 true; board 3 5 true] /\
             ~ debounce_convergence r (S n) released (power_on u) 2
                 fixed_coord DOWN [board 3 5 true; board 3 5 true].
Proof.
  destruct (scan_leaves_other_cells r (S n) released [board 3 5 true; board 3 5 true]
              (power_on u) {| outIx := 0%N; inIx := 0%N |} eq_refl)
    as (b' & Hscan & Hev0 & Hst0).
  destruct (scan_hits_fixed_cell r (S n) released [board 3 5 true; board 3 5 true] (power_on u))
    as (b2 & Hscan2 & Hev & _); [simpl; lia|].
  rewrite Hscan in Hscan2. injection Hscan2 as <-.
  exists b'. split; [exact Hscan|]. split; [exact Hev0|].
  split; [rewrite Hst0; reflexivity|]. split; [exact Hev|]. split.
  - intros H. destruct H as (b'' & Hs & Hone & _);
      [lia | simpl; lia | reflexivity | reflexivity |].
    rewrite Hscan in Hs. injection Hs as <-. rewrite Hev0 in Hone. discriminate.
  - intros H. destruct H as (b'' & Hs & Hone & _);
      [lia | simpl; lia | reflexivity | reflexivity |].
    rewrite Hscan in Hs. injection Hs as <-.
    rewrite Hev, repeat_length in Hone. cbn [length] in Hone. lia.
Qed.

(** The half of C2 that the code meets: a call reports, once, any cell whose
    confirmed state it changed. *)
Lemma changed_cell_reported_once (U : Type) (r : onlooker U) (v0 : keyview)
  (b : bench U) (p : samples) (c : kmx_coord) :
  exists b', call r p b = Some b' /\
             (confirmedState v0 (reported b') c <> confirmedState v0 (reported b) c ->
              length (events_for c (since b b')) = 1).
Proof.
  rewrite call_eq. eexists. split; [reflexivity|].
  match goal with
  | |- context [since b ?b'] => rewrite (since_app b b' [fixed_key] eq_refl)
  end.
  cbn [reported]. rewrite confirmedState_app.
  destruct (kmx_coord_eqb c fixed_coord) eqn:E.
  - intros _. apply kmx_coord_eqb_eq in E. subst c. reflexivity.
  - intros Hch. exfalso. apply Hch.
    apply (confirmedState_fixed_other c 1 E).
Qed.

(** C2 (the code at the failing input: two calls in a row).  After a first
    call from power-on, with any reporter and any pins, a second call reports
    cell (2,4) again although the state confirmed for it, Down, is the same
    before and after that call: the row scan does not report exactly the
    changes. *)
Theorem second_call_reports_unchanged_cell (U : Type) (r : onlooker U)
  (v0 : keyview) (u : U) (p1 p2 : samples) :
  exists b1, call r p1 (power_on u) = Some b1 /\
             confirmedState v0 (reported b1) fixed_coord = DOWN /\
             exists b2, call r p2 b1 = Some b2 /\
                        confirmedState v0 (reported b2) fixed_coord = DOWN /\
                        events_for fixed_coord (since b1 b2) = [fixed_key] /\
                        ~ reports_exactly_changes r v0 b1 p2.
Proof.
  rewrite call_eq. eexists. split; [reflexivity|]. split; [reflexivity|].
  rewrite call_eq. eexists. split; [reflexivity|]. split; [reflexivity|].
  split; [reflexivity|].
  intros H. specialize (H _ (call_eq r p2 _) fixed_coord).
  vm_compute in H. discriminate.
Qed.

(** C3 (the code at the failing input: a board of 3 by 5 cells whose
    readings flip between closed and open on every pass, threshold 2, every
    key confirmed Up at power-on).  Whatever the reporter and the number of
    calls a pass takes, the first pass alone reports cell (2,4) on each call
    and confirms it Down: the bounce is not rejected. *)
Theorem bouncing_key_reported (U : Type) (r : onlooker U) (n : nat) (u : U) :
  toggles fixed_coord [board 3 5 true; board 3 5 false; board 3 5 true; board 3 5 false] = true /\
  exists b', scan (S n) r [board 3 5 true] (power_on u) = Some b' /\
             events_for fixed_coord (since (power_on u) b') = repeat fixed_key (1 * S n) /\
             confirmedState released (reported b') fixed_coord = DOWN /\
             ~ bounce_rejection r (S n) released (power_on u) 2 fixed_coord
                 [board 3 5 true; board 3 5 false; board 3 5 true; board 3 5 false].
Proof.
  split; [reflexivity|].
  destruct (scan_hits_fixed_cell r (S n) released [board 3 5 true] (power_on u))
    as (b' & Hscan & Hev & Hst); [simpl; lia|].
  exists b'. split; [exact Hscan|]. split; [exact Hev|]. split; [exact Hst|].
  intros H. destruct (H ltac:(lia) eq_refl 1) as (b'' & Hs & Hnone & _).
  cbn [firstn] in Hs. rewrite Hscan in Hs. injection Hs as <-.
  rewrite Hev in Hnone. discriminate.
Qed.

(** C4 (the code at the failing input: a settled key, scanned again).  On a
    board of 3 by 5 cells that all read closed, one pass from power-on
    confirms cell (2,4) Down, the steady sampled state; further passes that
    sample the same state emit KeyEvents for that cell again, so the settled
    cell is not silent. *)
Theorem settled_cell_reported_again (U : Type) (r : onlooker U) (v0 : keyview)
  (u : U) (n m : nat) :
  exists b1, scan (S n) r [board 3 5 true] (power_on u) = Some b1 /\
             confirmedState v0 (reported b1) fixed_coord = proposed true /\
             exists b2, scan (S n) r (repeat (board 3 5 true) (S m)) b1 = Some b2 /\
                        events_for fixed_coord (since b1 b2)
                        = repeat fixed_key (length (repeat (board 3 5 true) (S m)) * S n) /\
                        ~ stable_state_is_silent r (S n) v0 b1 fixed_coord DOWN
                            (repeat (board 3 5 true) (S m)).
Proof.
  destruct (scan_hits_fixed_cell r (S n) v0 [board 3 5 true] (power_on u))
    as (b1 & Hscan1 & _ & Hst1); [simpl; lia|].
  exists b1. split; [exact Hscan1|]. split; [exact Hst1|].
  destruct (scan_hits_fixed_cell r (S n) v0 (repeat (board 3 5 true) (S m)) b1)
    as (b2 & Hscan2 & Hev2 & _); [simpl; lia|].
  exists b2. split; [exact Hscan2|]. split; [exact Hev2|].
  intros H. destruct H as (b2' & Hscan2' & Hsilent).
  - apply steady_closed_board.
  - rewrite Hst1. reflexivity.
  - rewrite Hscan2 in Hscan2'. injection Hscan2' as <-.
    rewrite Hev2 in Hsilent. simpl in Hsilent. discriminate.
Qed.

(** C5 (the code at the failing input: a 2 by 2 board with all four cells
    sampled, one pass from power-on).  Whatever the reporter and the number
    of calls the pass takes, every event of the pass names (2,4), a cell the
    pass had no sample for (it is not on the board): the coordinate is not
    that of a sampled cell. *)
Theorem unsampled_cell_reported (U : Type) (r : onlooker U) (n : nat) (u : U) :
  sampled (board 2 2 true) fixed_coord = false /\
  exists b', scan (S n) r [board 2 2 true] (power_on u) = Some b' /\
             since (power_on u) b' = repeat fixed_key (1 * S n) /\
             ~ coordinate_fidelity r (S n) (power_on u) (board 2 2 true).
Proof.
  split; [reflexivity|].
  destruct (scan_total r (S n) [board 2 2 true] (power_on u)) as (b' & Hscan & Hrep).
  pose proof (since_app (power_on u) b' _ Hrep) as Hsince.
  exists b'. split; [exact Hscan|]. split; [exact Hsince|].
  intros (b'' & Hs & Hall). rewrite Hscan in Hs. injection Hs as <-.
  rewrite Hsince in Hall. discriminate.
Qed.

(** C6 (the code at the failing input: a board of 3 by 5 closed cells on
    which the adapter has no sample for cell (2,4), every key confirmed Up at
    power-on, one pass).  Whatever the reporter and the number of calls the
    pass takes, the pass reports cell (2,4) on each call and confirms it
    Down, with no reading of it. *)
Theorem missing_sample_still_reported (U : Type) (r : onlooker U) (n : nat) (u : U) :
  without fixed_coord (board 3 5 true) fixed_coord = None /\
  exists b', scan (S n) r [without fixed_coord (board 3 5 true)] (power_on u) = Some b' /\
             events_for fixed_coord (since (power_on u) b') = repeat fixed_key (1 * S n) /\
             confirmedState released (reported b') fixed_coord = DOWN /\
             ~ missing_sample_resilience r (S n) released (power_on u) fixed_coord
                 (without fixed_coord (board 3 5 true)).
Proof.
  split; [reflexivity|].
  destruct (scan_hits_fixed_cell r (S n) released [without fixed_coord (board 3 5 true)]
              (power_on u)) as (b' & Hscan & Hev & Hst); [simpl; lia|].
  exists b'. split; [exact Hscan|]. split; [exact Hev|]. split; [exact Hst|].
  intros H. destruct (H eq_refl) as (b'' & Hs & Hnone & _).
  rewrite Hscan in Hs. injection Hs as <-. rewrite Hev in Hnone. discriminate.
Qed.

(** C7 (the code at the failing input: a 2 by 2 board, all four cells
    sampled Down, one full scan from power-on, that is two row scans).
    Whatever the reporter, the full scan reports (2,4) Down twice and nothing
    else, not the four keys of the board in strobe order. *)
Theorem full_scan_reports_fixed_key_twice (U : Type) (r : onlooker U) (u : U) :
  exists b', scanFull 2 r (board 2 2 true) (power_on u) = Some b' /\
             reported b' = [fixed_key; fixed_key] /\
             ~ full_scan_scenario r u.
Proof.
  destruct (scan_total r 2 [board 2 2 true] (power_on u)) as (b' & Hscan & Hrep).
  rewrite <- scanFull_is_a_pass in Hscan.
  exists b'. split; [exact Hscan|]. split; [exact Hrep|].
  intros (b'' & Hs & Hfour). rewrite Hscan in Hs. injection Hs as <-.
  rewrite Hrep in Hfour. discriminate.
Qed.

(* ================================================================== *)
(** ** The console reporter of main.c *)

Module ConsoleFacts.
Import String Ascii.
Import Main Output.

Local Open Scope string_scope.

(** *** Texts *)

Lemma text_append_assoc (a b c : string) : (a ++ b) ++ c = a ++ (b ++ c).
Proof. induction a as [|x a IH]; simpl; [reflexivity|]. now rewrite IH. Qed.

Lemma text_append_cancel (a x y : string) : a ++ x = a ++ y -> x = y.
Proof.
  induction a as [|c a IH]; simpl; intros E; [exact E|].
  injection E as E. now apply IH.
Qed.

Lemma text_length_append (a b : string) :
  String.length (a ++ b) = (String.length a + String.length b)%nat.
Proof. induction a as [|x a IH]; simpl; [reflexivity|]. now rewrite IH. Qed.

Lemma newlines_append (a b : string) :
  newlines (a ++ b) = (newlines a + newlines b)%nat.
Proof. induction a as [|x a IH]; simpl; [reflexivity|]. rewrite IH. lia. Qed.

Lemma prefix_append (a b : string) : prefix a (a ++ b) = true.
Proof.
  induction a as [|x a IH]; simpl.
  - destruct b; reflexivity.
  - destruct (ascii_dec x x) as [_|N]; [exact IH|now destruct N].
Qed.

(** *** Digits *)

Lemma digit_is_no_newline (a : ascii) : is_digit a = true -> is_newline a = false.
Proof.
  intros D. destruct (is_newline a) eqn:E; [|reflexivity].
  apply Ascii.eqb_eq in E. subst a. discriminate D.
Qed.

Lemma digits_have_no_newline (s : string) : all_digits s = true -> newlines s = 0%nat.
Proof.
  induction s as [|a s IH]; simpl; [reflexivity|].
  intros D. apply andb_true_iff in D. destruct D as [Da Ds].
  rewrite (digit_is_no_newline a Da), (IH Ds). reflexivity.
Qed.

Lemma string_of_uint_digits (d : Decimal.uint) :
  all_digits (DecimalString.NilEmpty.string_of_uint d) = true.
Proof. induction d; simpl; auto. Qed.

Lemma percent_i_digits (n : N) : all_digits (percent_i n) = true.
Proof. apply string_of_uint_digits. Qed.

Lemma percent_i_inj (n m : N) : percent_i n = percent_i m -> n = m.
Proof.
  unfold percent_i. intros E. apply DecimalN.Unsigned.to_uint_inj.
  assert (S : Some (N.to_uint n) = Some (N.to_uint m)).
  { rewrite <- !DecimalString.NilEmpty.usu. now rewrite E. }
  now injection S.
Qed.

(** A field of digits ends at the first character that is not a digit. *)
Lemma digits_field_ends (c : ascii) (a : string) :
  is_digit c = false ->
  forall (a' r r' : string),
  all_digits a = true -> all_digits a' = true ->
  a ++ String c r = a' ++ String c r' -> a = a' /\ r = r'.
Proof.
  intros Hc. induction a as [|x a IH]; intros [|x' a'] r r' Da Da' E; simpl in *.
  - injection E as E. auto.
  - injection E as Ex E. subst x'. rewrite Hc in Da'. discriminate.
  - injection E as Ex E. subst x. rewrite Hc in Da. discriminate.
  - injection E as Ex E. subst x'.
    apply andb_true_iff in Da, Da'. destruct Da as [_ Da], Da' as [_ Da'].
    destruct (IH a' r r' Da Da' E) as [-> ->]. auto.
Qed.

Lemma percent_i_width (n : N) :
  (n <= 255)%N -> 1 <= String.length (percent_i n) <= 3.
Proof.
  intros H.
  assert (I : In (N.to_nat n) (seq 0 256)) by (apply in_seq; lia).
  assert (A : forallb (fun i => Nat.leb 1 (String.length (percent_i (N.of_nat i)))
                                && Nat.leb (String.length (percent_i (N.of_nat i))) 3)
                      (seq 0 256) = true) by (vm_compute; reflexivity).
  rewrite forallb_forall in A. specialize (A _ I). rewrite N2Nat.id in A.
  apply andb_true_iff in A. destruct A as [A1 A2].
  apply PeanoNat.Nat.leb_le in A1, A2. lia.
Qed.

Lemma reportKey_line (k : Kmx.kmx_key) (out : stdout) : reportKey k out = out ++ line k.
Proof. reflexivity. Qed.

Lemma line_fixed_key : line Bench.fixed_key = "Reporting Key: 4x2 0" ++ newline.
Proof. reflexivity. Qed.

(** *** What a reader of the console can rely on *)

(** X1.  [reportKey] only appends, and what it appends is exactly one line:
    for every key and every earlier output, the new output is the earlier
    one followed by a text without a line end and then one newline, so the
    earlier output is kept as a prefix and the number of lines grows by
    one. *)
Theorem reportKey_appends_one_line (k : Kmx.kmx_key) (out : stdout) :
  exists body, reportKey k out = out ++ body ++ newline /\
               newlines body = 0%nat /\
               prefix out (reportKey k out) = true /\
               newlines (reportKey k out) = S (newlines out).
Proof.
  exists ("Reporting Key: " ++ percent_i (Kmx.inIx (Kmx.coord k)) ++ "x"
          ++ percent_i (Kmx.outIx (Kmx.coord k)) ++ " "
          ++ percent_i (Kmx.kmx_keystate_value (Kmx.state k))).
  assert (E : reportKey k out
              = out ++ ("Reporting Key: " ++ percent_i (Kmx.inIx (Kmx.coord k)) ++ "x"
                        ++ percent_i (Kmx.outIx (Kmx.coord k)) ++ " "
                        ++ percent_i (Kmx.kmx_keystate_value (Kmx.state k))) ++ newline).
  { unfold reportKey. f_equal. rewrite !text_append_assoc. reflexivity. }
  assert (B : newlines ("Reporting Key: " ++ percent_i (Kmx.inIx (Kmx.coord k)) ++ "x"
                        ++ percent_i (Kmx.outIx (Kmx.coord k)) ++ " "
                        ++ percent_i (Kmx.kmx_keystate_value (Kmx.state k))) = 0%nat).
  { rewrite !newlines_append, !(digits_have_no_newline _ (percent_i_digits _)). reflexivity. }
  split; [exact E|]. split; [exact B|]. split.
  - rewrite E. apply prefix_append.
  - rewrite E, newlines_append, (newlines_append _ newline), B. simpl. lia.
Qed.

(** X2.  The line [reportKey] writes identifies the key: two keys that
    leave the same output after the same earlier output are the same key
    (same inIx, same outIx, same state).  The digits of a field cannot run
    into the next one, because the fields are separated by an x, a blank and
    a newline. *)
Theorem reportKey_line_identifies_key (k1 k2 : Kmx.kmx_key) (out : stdout) :
  reportKey k1 out = reportKey k2 out -> k1 = k2.
Proof.
  rewrite !reportKey_line. intros E. apply text_append_cancel in E.
  unfold line, reportKey in E.
  apply (text_append_cancel "Reporting Key: ") in E.
  change ("x" ++ ?s) with (String "x" s) in E.
  destruct (digits_field_ends "x" (percent_i (Kmx.inIx (Kmx.coord k1))) eq_refl _ _ _
              (percent_i_digits _) (percent_i_digits _) E) as [Ein E'].
  destruct (digits_field_ends " " (percent_i (Kmx.outIx (Kmx.coord k1))) eq_refl _ _ _
              (percent_i_digits _) (percent_i_digits _) E') as [Eout E''].
  destruct (digits_field_ends (ascii_of_nat 10)
              (percent_i (Kmx.kmx_keystate_value (Kmx.state k1))) eq_refl _ _ _
              (percent_i_digits _) (percent_i_digits _) E'') as [Est _].
  apply percent_i_inj in Ein, Eout, Est.
  destruct k1 as [[o1 i1] s1], k2 as [[o2 i2] s2]; simpl in *.
  subst. f_equal. destruct s1, s2; simpl in Est; congruence.
Qed.

Lemma reportKey_line_identifies_key_witness :
  reportKey {| Kmx.coord := {| Kmx.outIx := 12%N; Kmx.inIx := 3%N |}; Kmx.state := Kmx.UP |}
            "earlier"
  = reportKey {| Kmx.coord := {| Kmx.outIx := 12%N; Kmx.inIx := 3%N |}; Kmx.state := Kmx.UP |}
              "earlier"
  /\ {| Kmx.coord := {| Kmx.outIx := 12%N; Kmx.inIx := 3%N |}; Kmx.state := Kmx.UP |}
     = {| Kmx.coord := {| Kmx.outIx := 12%N; Kmx.inIx := 3%N |}; Kmx.state := Kmx.UP |}.
Proof.
  split; [reflexivity|].
  apply (@reportKey_line_identifies_key
           {| Kmx.coord := {| Kmx.outIx := 12%N; Kmx.inIx := 3%N |}; Kmx.state := Kmx.UP |}
           {| Kmx.coord := {| Kmx.outIx := 12%N; Kmx.inIx := 3%N |}; Kmx.state := Kmx.UP |}
           "earlier"); reflexivity.
Defined.

Lemma console_fold (ps : list Bench.samples) :
  forall out : stdout,
  fold_left (fun u p => Bench.console p Bench.fixed_key u) ps out
  = out ++ copies (List.length ps) (line Bench.fixed_key).
Proof.
  induction ps as [|p ps IH]; intros out; cbn [fold_left List.length copies].
  - induction out as [|c out IHo]; simpl; [reflexivity|]. now rewrite <- IHo.
  - rewrite IH. unfold Bench.console. rewrite reportKey_line.
    apply text_append_assoc.
Qed.

Lemma newlines_copies (n : nat) (s : string) :
  newlines (copies n s) = (n * newlines s)%nat.
Proof. induction n as [|n IH]; simpl; [reflexivity|]. rewrite newlines_append, IH. lia. Qed.

(** X3.  [kmx_nextRow] called with the console reporter of main.c, any
    number of times and whatever the pins read: every call completes and
    prints the same line, so after n calls the console holds the earlier
    output followed by n copies of that line, n lines more than before. *)
Theorem nextRow_on_console_prints_a_line_per_call
  (ps : list Bench.samples) (b : Bench.bench stdout) :
  exists b', Bench.run Bench.console ps b = Some b' /\
             Bench.consumer b'
             = Bench.consumer b ++ copies (List.length ps) ("Reporting Key: 4x2 0" ++ newline) /\
             newlines (Bench.consumer b') = (newlines (Bench.consumer b) + List.length ps)%nat.
Proof.
  destruct (run_total Bench.console ps b) as (b' & Hrun & _ & Hcon).
  exists b'. split; [exact Hrun|].
  rewrite console_fold, line_fixed_key in Hcon. split; [exact Hcon|].
  rewrite Hcon, newlines_append, newlines_copies. simpl. lia.
Qed.

(** X4.  The program of main.c: [main] completes, returns 0, and leaves on
    the console the earlier output followed by the one line
    Reporting Key: 4x2 0 (inIx before outIx, and 0 for DOWN); no other
    line is written. *)
Theorem main_prints_one_line_and_returns_0 (out : stdout) :
  exists out', main out = Some (out', 0%N) /\
               out' = out ++ "Reporting Key: 4x2 0" ++ newline /\
               newlines out' = S (newlines out).
Proof.
  unfold main. rewrite kmx_nextRow_eq. eexists. split; [reflexivity|].
  split; [reflexivity|].
  rewrite reportKey_line, newlines_append. simpl. lia.
Qed.

(** X5.  The length of a reported line is bounded: for a key whose indices
    are within the range every [kmx_int] has (at most 255) and whose state is
    one of the two enumerators, DOWN or UP, [reportKey] appends between 21
    and 25 characters, the newline included. *)
Theorem reportKey_line_length (k : Kmx.kmx_key) (out : stdout) :
  (Kmx.outIx (Kmx.coord k) <= Kmx.kmx_int_guaranteed_max)%N ->
  (Kmx.inIx (Kmx.coord k) <= Kmx.kmx_int_guaranteed_max)%N ->
  Kmx.state k = Kmx.DOWN \/ Kmx.state k = Kmx.UP ->
  String.length out + 21 <= String.length (reportKey k out) <= String.length out + 25.
Proof.
  intros Ho Hi Hs. unfold reportKey.
  rewrite !text_length_append.
  pose proof (percent_i_width Ho) as Wo. pose proof (percent_i_width Hi) as Wi.
  assert (Ws : String.length (percent_i (Kmx.kmx_keystate_value (Kmx.state k))) = 1)
    by (destruct Hs as [-> | ->]; reflexivity).
  rewrite Ws. simpl. lia.
Qed.

Lemma reportKey_line_length_witness :
  (Kmx.outIx (Kmx.coord {| Kmx.coord := {| Kmx.outIx := 255%N; Kmx.inIx := 7%N |};
                          Kmx.state := Kmx.UP |}) <= Kmx.kmx_int_guaranteed_max)%N /\
  (Kmx.inIx (Kmx.coord {| Kmx.coord := {| Kmx.outIx := 255%N; Kmx.inIx := 7%N |};
                         Kmx.state := Kmx.UP |}) <= Kmx.kmx_int_guaranteed_max)%N /\
  (Kmx.state {| Kmx.coord := {| Kmx.outIx := 255%N; Kmx.inIx := 7%N |};
                Kmx.state := Kmx.UP |} = Kmx.DOWN \/
   Kmx.state {| Kmx.coord := {| Kmx.outIx := 255%N; Kmx.inIx := 7%N |};
                Kmx.state := Kmx.UP |} = Kmx.UP) /\
  String.length "earlier" + 21
  <= String.length (reportKey {| Kmx.coord := {| Kmx.outIx := 255%N; Kmx.inIx := 7%N |};
                                 Kmx.state := Kmx.UP |} "earlier")
  <= String.length "earlier" + 25.
Proof.
  split; [unfold Kmx.kmx_int_guaranteed_max; simpl; lia|].
  split; [unfold Kmx.kmx_int_guaranteed_max; simpl; lia|].
  split; [right; reflexivity|].
  apply (@reportKey_line_length
           {| Kmx.coord := {| Kmx.outIx := 255%N; Kmx.inIx := 7%N |}; Kmx.state := Kmx.UP |}
           "earlier");
    [unfold Kmx.kmx_int_guaranteed_max; simpl; lia
    |unfold Kmx.kmx_int_guaranteed_max; simpl; lia
    |right; reflexivity].
Defined.

End ConsoleFacts.
